(** * Gemini RAG assistant: provider adapter and HTTP gateway

    A shallow embedding of [backend/gemini_service.py] (the provider
    adapter, class [GeminiService]) and of [backend/main.py] (the FastAPI
    gateway), with the properties of the specification stated over it.

    Layout:
    - [PyStr]: the Python string operations the adapter uses
      ([str.startswith], [in], [str.split], [+]);
    - the data model (exceptions, provider file records, requests and
      responses, the structured standard output);
    - the two external collaborators as interfaces: the operating system
      ([OS]) and the [google.generativeai] SDK ([Genai]);
    - a state-and-exception monad [M] over the world (stdout, file system,
      provider, trace of SDK calls);
    - the adapter methods and the endpoints, one definition per source
      function (or loop);
    - concrete instances of both interfaces, used to run the code;
    - the theorems. *)

From Stdlib Require Import String Ascii List Bool Arith ZArith Lia DecimalString.
From Equations Require Import Equations.
Import ListNotations.

Open Scope string_scope.

(* ===================================================================== *)
(** ** Python string operations *)
(* ===================================================================== *)

Module PyStr.

(** [s.startswith(pre)] *)
Fixpoint startswith (s pre : string) {struct pre} : bool :=
  match pre, s with
  | EmptyString, _ => true
  | String _ _, EmptyString => false
  | String a pre', String b s' => Ascii.eqb a b && startswith s' pre'
  end.

(** [s[n:]] *)
Fixpoint drop (n : nat) (s : string) : string :=
  match n, s with
  | O, _ => s
  | S _, EmptyString => EmptyString
  | S n', String _ s' => drop n' s'
  end.

(** [sub in s]: [sub] occurs in [s] as a contiguous substring. *)
Fixpoint contains (sub s : string) : bool :=
  startswith s sub ||
  match s with
  | EmptyString => false
  | String _ s' => contains sub s'
  end.

(** [s.partition(sep)], without the separator in the result: the text
    before and after the leftmost occurrence of [sep], or [None] when
    [sep] does not occur. *)
Fixpoint partition (sep s : string) : option (string * string) :=
  if startswith s sep then Some (EmptyString, drop (String.length sep) s)
  else match s with
       | EmptyString => None
       | String c s' =>
           match partition sep s' with
           | Some (before, after) => Some (String c before, after)
           | None => None
           end
       end.

Lemma startswith_drop sep s :
  startswith s sep = true -> s = sep ++ drop (String.length sep) s.
Proof.
  revert s; induction sep as [|c sep IH]; intros s H; [reflexivity|].
  destruct s as [|d s]; simpl in H; [discriminate|].
  apply andb_true_iff in H as [Hc Hs]. apply Ascii.eqb_eq in Hc as ->.
  simpl. f_equal. now apply IH.
Qed.

Lemma startswith_app sep s : startswith (sep ++ s) sep = true.
Proof.
  induction sep as [|c sep IH]; simpl; [reflexivity|].
  now rewrite Ascii.eqb_refl.
Qed.

Lemma drop_app sep s : drop (String.length sep) (sep ++ s) = s.
Proof. induction sep; simpl; auto. Qed.

Lemma length_app (a b : string) :
  String.length (a ++ b) = String.length a + String.length b.
Proof. induction a; simpl; auto. Qed.

Lemma app_assoc (a b c : string) : (a ++ b) ++ c = a ++ b ++ c.
Proof. induction a; simpl; congruence. Qed.

(** What [partition] returns really is a decomposition around [sep]. *)
Lemma partition_Some sep s before after :
  partition sep s = Some (before, after) -> s = before ++ sep ++ after.
Proof.
  revert before; induction s as [|c s IH]; intros before; simpl.
  - destruct (startswith EmptyString sep) eqn:E; [|discriminate].
    intros [= <- <-]. now apply startswith_drop in E.
  - destruct (startswith (String c s) sep) eqn:E.
    + intros [= <- <-]. now apply startswith_drop in E.
    + destruct (partition sep s) as [[b a]|]; [|discriminate].
      intros [= <- <-]. simpl. f_equal. now apply IH.
Qed.

Lemma partition_shorter c sep s before after :
  partition (String c sep) s = Some (before, after) ->
  String.length after < String.length s.
Proof.
  intros H. apply partition_Some in H. subst s.
  rewrite !length_app. simpl. lia.
Qed.

Lemma partition_contains sep s :
  contains sep s = match partition sep s with Some _ => true | None => false end.
Proof.
  induction s as [|c s IH]; simpl.
  - destruct (startswith EmptyString sep); reflexivity.
  - destruct (startswith (String c s) sep); simpl; [reflexivity|].
    rewrite IH. destruct (partition sep s) as [[? ?]|]; reflexivity.
Qed.

Definition inspect {A} (a : A) : {b : A | a = b} := exist _ a eq_refl.

(** [s.split(sep)]: the pieces of [s] between the occurrences of [sep],
    found left to right without overlap.  Python raises [ValueError] on
    an empty separator; the adapter only ever splits on a literal,
    non-empty separator, and the first clause is never reached. *)
Equations? split (sep s : string) : list string by wf (String.length s) lt :=
  split EmptyString s := [s];
  split (String c sep) s with inspect (partition (String c sep) s) := {
    | exist _ (Some (before, after)) _ => before :: split (String c sep) after;
    | exist _ None _ => [s] }.
Proof. eapply partition_shorter; eassumption. Qed.

(** [l[-1]] on the result of a split, which is never empty. *)
Definition last_piece (l : list string) : string := List.last l EmptyString.

(** *** Unfolding lemmas for [split] *)

Lemma split_cons c sep s before after :
  partition (String c sep) s = Some (before, after) ->
  split (String c sep) s = before :: split (String c sep) after.
Proof.
  intros H. rewrite split_equation_2.
  destruct (inspect (partition (String c sep) s)) as [[[b a]|] E]; simpl.
  - rewrite H in E. injection E as <- <-. reflexivity.
  - rewrite H in E. discriminate.
Qed.

Lemma split_single c sep s :
  partition (String c sep) s = None -> split (String c sep) s = [s].
Proof.
  intros H. rewrite split_equation_2.
  destruct (inspect (partition (String c sep) s)) as [[[b a]|] E]; simpl.
  - rewrite H in E. discriminate.
  - reflexivity.
Qed.

Lemma split_no_separator c sep s :
  contains (String c sep) s = false -> split (String c sep) s = [s].
Proof.
  intros H. apply split_single.
  rewrite partition_contains in H.
  destruct (partition (String c sep) s); [discriminate | reflexivity].
Qed.

(** [startswith] only looks at the first [length pre] characters. *)
Lemma startswith_app_long pre a b :
  String.length pre <= String.length a ->
  startswith (a ++ b) pre = startswith a pre.
Proof.
  revert a; induction pre as [|c pre IH]; intros a Hlen; [reflexivity|].
  destruct a as [|d a]; simpl in *; [lia|].
  rewrite IH by lia. reflexivity.
Qed.

Lemma partition_unfold sep s :
  partition sep s =
  if startswith s sep then Some (EmptyString, drop (String.length sep) s)
  else match s with
       | EmptyString => None
       | String c s' =>
           match partition sep s' with
           | Some (before, after) => Some (String c before, after)
           | None => None
           end
       end.
Proof. destruct s; reflexivity. Qed.

(** The leftmost occurrence: when [init ++ z] has no occurrence that
    starts inside [p], partitioning [p ++ (init ++ z) ++ rest] cuts
    exactly after [p]. *)
Lemma partition_leftmost init z p rest :
  contains (init ++ String z EmptyString) (p ++ init) = false ->
  partition (init ++ String z EmptyString) (p ++ (init ++ String z EmptyString) ++ rest)
  = Some (p, rest).
Proof.
  induction p as [|c p IH]; intros H.
  - change (EmptyString ++ ?x) with x.
    assert (E : forall t, partition (init ++ String z EmptyString) ((init ++ String z EmptyString) ++ t)
                          = Some (EmptyString, t)).
    { intros t. rewrite partition_unfold, startswith_app, drop_app.
      reflexivity. }
    apply E.
  - simpl in H. apply orb_false_iff in H as [Hhere Hlater].
    change (String c p ++ ?x) with (String c (p ++ x)).
    rewrite partition_unfold.
    replace (String c (p ++ (init ++ String z EmptyString) ++ rest))
      with ((String c (p ++ init)) ++ String z rest)
      by (simpl; f_equal; rewrite !app_assoc; reflexivity).
    rewrite startswith_app_long.
    2:{ simpl. rewrite !length_app. simpl. lia. }
    rewrite Hhere.
    replace (p ++ init ++ String z rest) with (p ++ (init ++ String z EmptyString) ++ rest)
      by (rewrite !app_assoc; reflexivity).
    rewrite (IH Hlater). reflexivity.
Qed.

(** The last piece of a split is the text after the separator, when the
    separator first occurs right after [p] and does not occur in
    [rest]. *)
Lemma split_last_piece init z p rest :
  contains (init ++ String z EmptyString) (p ++ init) = false ->
  contains (init ++ String z EmptyString) rest = false ->
  last_piece (split (init ++ String z EmptyString) (p ++ (init ++ String z EmptyString) ++ rest))
  = rest.
Proof.
  intros Hp Hrest.
  pose proof (partition_leftmost init z p rest Hp) as E.
  destruct (init ++ String z EmptyString) as [|c sep] eqn:Esep.
  { destruct init; discriminate. }
  rewrite (split_cons _ _ _ _ _ E), (split_no_separator _ _ _ Hrest).
  reflexivity.
Qed.

End PyStr.

(* ===================================================================== *)
(** ** Data model *)
(* ===================================================================== *)

(** Python exceptions.  [Exception] stands for whatever the SDK or the
    operating system raises; [HTTPException] is FastAPI's, raised by the
    gateway itself. *)
Inductive exn : Type :=
| Exception (msg : string)
| HTTPException (status_code : nat) (detail : string).

(** [str(e)] *)
Definition str (e : exn) : string :=
  match e with
  | Exception msg => msg
  | HTTPException code detail =>
      NilEmpty.string_of_uint (Nat.to_uint code) ++ ": " ++ detail
  end.

Inductive result (A : Type) : Type :=
| Ok (a : A)
| Raise (e : exn).
Arguments Ok {A} a.
Arguments Raise {A} e.

Definition bytes : Type := list Byte.byte.

(** Modelled from the spec: the provider's file-state enumeration, whose
    declaration lives in the SDK and not in the repository; the states are
    those of the specification's data model.  The adapter only ever reads
    the [name] of a state. *)
Inductive FileState : Type := PENDING | ACTIVE | FAILED.

Definition state_name (s : FileState) : string :=
  match s with
  | PENDING => "PENDING"
  | ACTIVE => "ACTIVE"
  | FAILED => "FAILED"
  end.

(** A provider file record, [genai.types.File], with the attributes the
    adapter reads. *)
Record File : Type := mkFile {
  name : string;
  display_name : string;
  file_uri : string;
  file_mime_type : string;
  state : FileState
}.

(** The elements of [ChatRequest.file_ids], declared [list | None]: the
    request body is JSON and the list is not typed, so values other than
    strings can arrive, which is why the adapter tests
    [isinstance(fid, str)]. *)
Inductive pyval : Type :=
| PyStr (s : string)
| PyInt (n : Z)
| PyBool (b : bool)
| PyNone.

(** [starlette.datastructures.UploadFile]; [content] is what
    [await file.read()] returns. *)
Record UploadFile : Type := mkUploadFile {
  upload_filename : string;
  content_type : option string;
  content : bytes
}.

Record FileUploadResponse : Type := mkFileUploadResponse {
  filename : string;
  file_id : string;
  mime_type : string;
  uri : string
}.

(** One entry of [history] as the client sends it. *)
Record ChatTurn : Type := mkChatTurn {
  turn_role : string;
  turn_content : string
}.

(** One entry of [gemini_history]: [{"role": role, "parts": [content]}]. *)
Record Content : Type := mkContent {
  role : string;
  parts : list string
}.

(** An element of [message_parts]: the message text or a file handle. *)
Inductive Part : Type :=
| PartText (text : string)
| PartFile (f : File).

Record GenerativeModel : Type := mkGenerativeModel {
  model_name : string;
  system_instruction : string
}.

Record ChatSession : Type := mkChatSession {
  chat_model : GenerativeModel;
  chat_history : list Content
}.

(** [response.text] is a property that raises when the reply carries no
    text. *)
Record GenerateContentResponse : Type := mkResponse {
  response_text : result string
}.

Record ChatRequest : Type := mkChatRequest {
  req_message : string;
  req_history : list ChatTurn;
  req_file_ids : option (list pyval)
}.

(** What an endpoint function returns. *)
Inductive Returned : Type :=
| JSONUpload (resp : FileUploadResponse)
| JSONResponse (response : string)
| JSONMessage (message : string)
| JSONStatus (status message : string)
| FileResponse (path : string).

(** Standard output, one constructor per [print] of the source. *)
Inductive log_entry : Type :=
| DebugSavedLocally (file_path : string)
| DebugAskQuestion (message : string) (file_ids : option (list pyval))
| DebugProcessingFileIds
| DebugExtractedId (clean_id fid : pyval)
| DebugRawId (fid : pyval)
| DebugRetrieved (name state : string)
| WarningNotActive (name state : string)
| ErrorCouldNotGet (fid : pyval) (e : exn)
| DebugAttached (n : nat)
| DebugNoValidFiles
| DebugSending
| DebugResponseReceived
| CriticalError (e : exn)
| DebugDeleting (file_id : string)
| ErrorDeleting (file_id : string) (e : exn).

(** The calls made on the SDK, in order. *)
Inductive genai_call : Type :=
| CallUploadFile (content : bytes) (display_name mime_type : string)
| CallGetFile (name : pyval)
| CallDeleteFile (name : string)
| CallSendMessage (chat : ChatSession) (message_parts : list Part).

(* ===================================================================== *)
(** ** The external collaborators *)
(* ===================================================================== *)

(** The operating system, over a file-system state [FS]. *)
Class OS (FS : Type) : Type := {
  (** [os.path.exists(path)] *)
  os_path_exists : string -> FS -> bool;
  (** [os.makedirs(path)] *)
  os_makedirs : string -> FS -> result unit * FS;
  (** [with open(path, "wb") as f: f.write(content)] *)
  os_write_file : string -> bytes -> FS -> result unit * FS;
  (** reading a file back, as the framework does to serve a
      [FileResponse] *)
  os_read_file : string -> FS -> result bytes
}.

(** The [google.generativeai] SDK, over a provider state [P].  Each call
    may fail and may change the provider. *)
Class Genai (P : Type) : Type := {
  genai_upload_file : bytes -> string -> string -> P -> result File * P;
  genai_get_file : pyval -> P -> result File * P;
  genai_delete_file : string -> P -> result unit * P;
  chat_send_message :
    ChatSession -> list Part -> P -> result GenerateContentResponse * P
}.

(* ===================================================================== *)
(** ** The world and the monad of the program *)
(* ===================================================================== *)

(** Everything a request can observe or change: what was printed, the
    local file system, the provider, and the SDK calls made so far. *)
Record world (FS P : Type) : Type := mkWorld {
  stdout : list log_entry;
  fs : FS;
  provider : P;
  calls : list genai_call
}.
Arguments mkWorld {FS P} _ _ _ _.
Arguments stdout {FS P} _.
Arguments fs {FS P} _.
Arguments provider {FS P} _.
Arguments calls {FS P} _.

(** A computation either returns or raises, and in both cases leaves a
    world behind: what was printed or written before an exception stays
    printed and written. *)
Definition M (FS P A : Type) : Type := world FS P -> result A * world FS P.

Definition ret {FS P A} (a : A) : M FS P A := fun w => (Ok a, w).

Definition raise {FS P A} (e : exn) : M FS P A := fun w => (Raise e, w).

Definition bind {FS P A B} (m : M FS P A) (k : A -> M FS P B) : M FS P B :=
  fun w =>
    match m w with
    | (Ok a, w') => k a w'
    | (Raise e, w') => (Raise e, w')
    end.

(** [try: body except Exception as e: handler] *)
Definition try_except {FS P A} (body : M FS P A) (handler : exn -> M FS P A)
  : M FS P A :=
  fun w =>
    match body w with
    | (Ok a, w') => (Ok a, w')
    | (Raise e, w') => handler e w'
    end.

Notation "x <- m ;; k" := (bind m (fun x => k))
  (at level 61, m at next level, right associativity).
Notation "m ;; k" := (bind m (fun _ => k))
  (at level 61, right associativity).

Definition print {FS P} (entry : log_entry) : M FS P unit :=
  fun w => (Ok tt, mkWorld (stdout w ++ [entry]) (fs w) (provider w) (calls w)).

(** Running an operation of the operating system on the world's file
    system. *)
Definition on_fs {FS P A} (op : FS -> result A * FS) : M FS P A :=
  fun w =>
    let (r, fs') := op (fs w) in
    (r, mkWorld (stdout w) fs' (provider w) (calls w)).

(** Running an SDK operation on the world's provider, recording the
    call. *)
Definition on_provider {FS P A} (call : genai_call) (op : P -> result A * P)
  : M FS P A :=
  fun w =>
    let (r, p') := op (provider w) in
    (r, mkWorld (stdout w) (fs w) p' (calls w ++ [call])).

(** [x or default] on an optional string: [None] and the empty string are
    falsy. *)
Definition py_or (x : option string) (default : string) : string :=
  match x with
  | Some (String c s) => String c s
  | Some EmptyString | None => default
  end.

(* ===================================================================== *)
(** ** gemini_service.py *)
(* ===================================================================== *)

Module gemini_service.

(** The test of line 84:
    [isinstance(fid, str) and fid.startswith("http") and "/files/" in fid] *)
Definition is_file_uri (fid : pyval) : bool :=
  match fid with
  | PyStr s => PyStr.startswith s "http" && PyStr.contains "/files/" s
  | _ => false
  end.

(** The identifier the first loop of [ask_question] appends to
    [clean_file_ids] for [fid] (lines 84-89). *)
Definition clean_file_id (fid : pyval) : pyval :=
  match fid with
  | PyStr s =>
      if is_file_uri fid
      then PyStr ("files/" ++ PyStr.last_piece (PyStr.split "/files/" s))
      else fid
  | _ => fid
  end.

Section GeminiService.

Context {FS P : Type} {os : OS FS} {genai : Genai P}.

Local Abbreviation M := (M FS P).

(** [GeminiService.upload_file] *)
Definition upload_file (file : UploadFile) : M FileUploadResponse :=
  let content := content file in
  uploads_exists <- on_fs (fun fs => (Ok (os_path_exists "uploads" fs), fs)) ;;
  (if negb uploads_exists then on_fs (os_makedirs "uploads") else ret tt) ;;
  let file_path := "uploads/" ++ upload_filename file in
  on_fs (os_write_file file_path content) ;;
  print (DebugSavedLocally file_path) ;;
  let mime_type := py_or (content_type file) "application/octet-stream" in
  gemini_file <-
    on_provider (CallUploadFile content (upload_filename file) mime_type)
      (genai_upload_file content (upload_filename file) mime_type) ;;
  ret (mkFileUploadResponse
         (upload_filename file) (file_uri gemini_file) mime_type
         (file_uri gemini_file)).

(** Lines 66-72: the history in the provider's turn format. *)
Definition gemini_history (history : list ChatTurn) : list Content :=
  map (fun msg =>
         let role := if String.eqb (turn_role msg) "user" then "user" else "model" in
         mkContent role [turn_content msg])
      history.

(** Lines 81-90: the loop that fills [clean_file_ids]. *)
Fixpoint clean_file_ids (file_ids : list pyval) : M (list pyval) :=
  match file_ids with
  | [] => ret []
  | fid :: rest =>
      print (if is_file_uri fid
             then DebugExtractedId (clean_file_id fid) fid
             else DebugRawId fid) ;;
      cleaned <- clean_file_ids rest ;;
      ret (clean_file_id fid :: cleaned)
  end.

(** Lines 92-102: the loop that fills [valid_files]. *)
Fixpoint valid_files (clean_file_ids : list pyval) : M (list File) :=
  match clean_file_ids with
  | [] => ret []
  | fid :: rest =>
      kept <-
        try_except
          (f <- on_provider (CallGetFile fid) (genai_get_file fid) ;;
           print (DebugRetrieved (name f) (state_name (state f))) ;;
           if String.eqb (state_name (state f)) "ACTIVE"
           then ret [f]
           else print (WarningNotActive (name f) (state_name (state f))) ;;
                ret [])
          (fun e => print (ErrorCouldNotGet fid e) ;; ret []) ;;
      others <- valid_files rest ;;
      ret (kept ++ others)%list
  end.

(** Lines 78-108: [message_parts].  The test [if file_ids:] is taken for
    a non-empty list only. *)
Definition message_parts (message : string) (file_ids : option (list pyval))
  : M (list Part) :=
  match file_ids with
  | Some (fid :: rest) =>
      print DebugProcessingFileIds ;;
      cleaned <- clean_file_ids (fid :: rest) ;;
      valid <- valid_files cleaned ;;
      match valid with
      | _ :: _ =>
          print (DebugAttached (List.length valid)) ;;
          ret (PartText message :: map PartFile valid)
      | [] =>
          print DebugNoValidFiles ;;
          ret [PartText message]
      end
  | Some [] | None => ret [PartText message]
  end.

(** [GeminiService.ask_question].  [genai.GenerativeModel(...)] and
    [model.start_chat(...)] build local objects and reach the provider
    only when a message is sent.  In the handler,
    [traceback.print_exc()] writes to standard error, which the world
    does not hold: of the handler only the CRITICAL ERROR line reaches
    standard output. *)
Definition ask_question (message : string) (history : list ChatTurn)
    (file_ids : option (list pyval)) : M string :=
  try_except
    (print (DebugAskQuestion message file_ids) ;;
     let model :=
       mkGenerativeModel "gemini-2.0-flash"
         "You are a PDF-based RAG assistant. Answer only from uploaded documents. You have access to metadata. [page x]" in
     let chat := mkChatSession model (gemini_history history) in
     parts <- message_parts message file_ids ;;
     print DebugSending ;;
     response <-
       on_provider (CallSendMessage chat parts) (chat_send_message chat parts) ;;
     print DebugResponseReceived ;;
     match response_text response with
     | Ok text => ret text
     | Raise e => raise e
     end)
    (fun e => print (CriticalError e) ;; raise e).

(** [GeminiService.delete_file] *)
Definition delete_file (file_id : string) : M unit :=
  try_except
    (print (DebugDeleting file_id) ;;
     on_provider (CallDeleteFile file_id) (genai_delete_file file_id))
    (fun e => print (ErrorDeleting file_id e) ;; raise e).

End GeminiService.

End gemini_service.

(* ===================================================================== *)
(** ** main.py *)
(* ===================================================================== *)

Module main.

Section Endpoints.

Context {FS P : Type} {os : OS FS} {genai : Genai P}.

Local Abbreviation M := (M FS P).

(** [POST /upload] *)
Definition upload (file : UploadFile) : M Returned :=
  resp <- gemini_service.upload_file file ;;
  ret (JSONUpload resp).

(** [GET /] *)
Definition root : M Returned :=
  ret (JSONStatus "alive" "Backend is running").

(** [POST /chat] *)
Definition chat (req : ChatRequest) : M Returned :=
  response <-
    gemini_service.ask_question (req_message req) (req_history req)
      (req_file_ids req) ;;
  ret (JSONResponse response).

(** [DELETE /files/{file_id:path}] *)
Definition delete_file (file_id : string) : M Returned :=
  try_except
    (gemini_service.delete_file file_id ;;
     ret (JSONMessage ("File " ++ file_id ++ " deleted successfully")))
    (fun e => raise (HTTPException 500 (str e))).

(** [GET /files/view/{filename}], for the names the route lets through:
    [filename] is a single path segment. *)
Definition view_file (filename : string) : M Returned :=
  let file_path := "uploads/" ++ filename in
  found <- on_fs (fun fs => (Ok (os_path_exists file_path fs), fs)) ;;
  if found
  then ret (FileResponse file_path)
  else ret (JSONMessage
              "File not found locally. It might have been uploaded in a previous session or deleted.").

End Endpoints.

End main.

(* ===================================================================== *)
(** ** The framework's side of a request *)
(* ===================================================================== *)

(** What goes back on the wire.  FastAPI serialises a returned value with
    status 200, serves a [FileResponse] by reading the file, answers an
    [HTTPException] with its status code and a body holding its detail,
    and answers any other exception that escapes an endpoint with the
    fixed text "Internal Server Error" and status 500. *)
Inductive http_body : Type :=
| BodyJSON (value : Returned)
| BodyDetail (detail : string)
| BodyPlainText (text : string)
| BodyFile (data : bytes).

Record http_response : Type := mkHttpResponse {
  status : nat;
  body : http_body
}.

Definition internal_server_error : http_response :=
  mkHttpResponse 500 (BodyPlainText "Internal Server Error").

Definition respond {FS P} {os : OS FS} (outcome : result Returned * world FS P)
  : http_response :=
  match fst outcome with
  | Ok (FileResponse path) =>
      match os_read_file path (fs (snd outcome)) with
      | Ok data => mkHttpResponse 200 (BodyFile data)
      | Raise _ => internal_server_error
      end
  | Ok value => mkHttpResponse 200 (BodyJSON value)
  | Raise (HTTPException code detail) => mkHttpResponse code (BodyDetail detail)
  | Raise (Exception _) => internal_server_error
  end.

(* ===================================================================== *)
(** ** Listing the provider's files *)
(* ===================================================================== *)

Module listing.

(** A provider file record together with the two further attributes that
    [list_files] reads; [T] is the type of [datetime] values. *)
Record FileInfo (T : Type) : Type := mkFileInfo {
  info_file : File;
  size_bytes : Z;
  create_time : option T
}.
Arguments mkFileInfo {T} _ _ _.
Arguments info_file {T} _.
Arguments size_bytes {T} _.
Arguments create_time {T} _.

(** One dictionary of the list [list_files] returns. *)
Record FileEntry : Type := mkFileEntry {
  entry_name : string;
  entry_display_name : string;
  entry_uri : string;
  entry_mime_type : string;
  entry_size_bytes : Z;
  entry_create_time : option string;
  entry_state : string
}.

(** [genai.list_files()] is an iterator over the account's files, fetched
    page by page: it yields some records and then either ends or raises.
    [isoformat] is [datetime.isoformat]. *)
Class GenaiFiles (P T : Type) : Type := {
  genai_list_files : P -> (list (FileInfo T) * option exn) * P;
  isoformat : T -> string
}.

(** The line [list_files] prints; no other method prints it. *)
Inductive listing_line : Type :=
| ErrorListing (e : exn).

Section Listing.

Context {FS P T : Type} {sdk : GenaiFiles P T}.

(** The dictionary appended for one record (lines 130-138).  A [datetime]
    is always truthy, so [create_time] is [None] only for a missing
    one. *)
Definition file_entry (f : FileInfo T) : FileEntry :=
  mkFileEntry
    (name (info_file f))
    (display_name (info_file f))
    (file_uri (info_file f))
    (file_mime_type (info_file f))
    (size_bytes f)
    (match create_time f with
     | Some t => Some (isoformat t)
     | None => None
     end)
    (state_name (state (info_file f))).

(** The loop of lines 129-138 over what the iterator yields. *)
Fixpoint append_entries (yielded : list (FileInfo T)) (files : list FileEntry)
  : list FileEntry :=
  match yielded with
  | [] => files
  | f :: rest => append_entries rest (files ++ [file_entry f])
  end.

(** [GeminiService.list_files].  Beside the outcome and the world it
    returns the lines it printed; the trace of SDK calls in the world
    records the upload, query, send and delete calls only, and is left as
    it is. *)
Definition list_files (w : world FS P)
  : result (list FileEntry) * world FS P * list listing_line :=
  let '(yielded, failure, p') := genai_list_files (provider w) in
  let w' := mkWorld (stdout w) (fs w) p' (calls w) in
  let files := append_entries yielded [] in
  match failure with
  | None => (Ok files, w', [])
  | Some e => (Raise e, w', [ErrorListing e])
  end.

(** [GET /files]: [list_uploaded_files] of [main.py]. *)
Definition list_uploaded_files (w : world FS P)
  : result (list FileEntry) * world FS P * list listing_line :=
  match list_files w with
  | (Ok files, w', out) => (Ok files, w', out)
  | (Raise e, w', out) => (Raise (HTTPException 500 (str e)), w', out)
  end.

End Listing.

End listing.

(* ===================================================================== *)
(** ** Concrete collaborators, to run the program *)
(* ===================================================================== *)

Module Demo.

(** A flat disk: directories, files with their bytes, and whether the
    file system accepts writes (a read-only mount does not). *)
Record disk : Type := mkDisk {
  writable : bool;
  dirs : list string;
  files : list (string * bytes)
}.

Fixpoint lookup (path : string) (l : list (string * bytes)) : option bytes :=
  match l with
  | [] => None
  | (p, data) :: rest => if String.eqb p path then Some data else lookup path rest
  end.

Definition read_only_error : exn := Exception "[Errno 30] Read-only file system".

#[global] Instance disk_os : OS disk := {|
  os_path_exists path d :=
    existsb (String.eqb path) (dirs d)
    || match lookup path (files d) with Some _ => true | None => false end;
  os_makedirs path d :=
    if writable d
    then (Ok tt, mkDisk true (path :: dirs d) (files d))
    else (Raise read_only_error, d);
  os_write_file path data d :=
    if writable d
    then (Ok tt, mkDisk true (dirs d) ((path, data) :: files d))
    else (Raise read_only_error, d);
  os_read_file path d :=
    match lookup path (files d) with
    | Some data => Ok data
    | None => Raise (Exception "[Errno 2] No such file or directory")
    end
|}.

(** A provider account: the files it stores, and whether generation is
    available (it is not once the quota is exhausted). *)
Record account : Type := mkAccount {
  stored : list File;
  available : bool
}.

Definition not_found : exn := Exception "404 File not found".
Definition quota_exhausted : exn := Exception "429 Resource has been exhausted".

Definition has_name (n : string) (f : File) : bool := String.eqb (name f) n.

#[global] Instance account_genai : Genai account := {|
  genai_upload_file data display mime a :=
    let id := "doc" ++ NilEmpty.string_of_uint (Nat.to_uint (List.length (stored a))) in
    let f := mkFile ("files/" ++ id) display
               ("https://generativelanguage.googleapis.com/v1beta/files/" ++ id)
               mime ACTIVE in
    (Ok f, mkAccount (stored a ++ [f]) (available a));
  genai_get_file n a :=
    match n with
    | PyStr s =>
        match find (has_name s) (stored a) with
        | Some f => (Ok f, a)
        | None => (Raise not_found, a)
        end
    | _ => (Raise (Exception "TypeError: name must be a string"), a)
    end;
  genai_delete_file n a :=
    if existsb (has_name n) (stored a)
    then (Ok tt, mkAccount (filter (fun f => negb (has_name n f)) (stored a)) (available a))
    else (Raise not_found, a);
  chat_send_message chat message_parts a :=
    if available a
    then (Ok (mkResponse (Ok "The report covers the first quarter. [page 1]")), a)
    else (Raise quota_exhausted, a)
|}.

Definition report : File :=
  mkFile "files/report" "report.pdf"
    "https://generativelanguage.googleapis.com/v1beta/files/report"
    "application/pdf" ACTIVE.

Definition video : File :=
  mkFile "files/video" "talk.mp4"
    "https://generativelanguage.googleapis.com/v1beta/files/video"
    "video/mp4" PENDING.

Definition broken : File :=
  mkFile "files/broken" "broken.pdf"
    "https://generativelanguage.googleapis.com/v1beta/files/broken"
    "application/pdf" FAILED.

Definition pdf_bytes : bytes := [Byte.x25; Byte.x50; Byte.x44; Byte.x46].

(** An upload of a PDF, and one for which the client names no content
    type. *)
Definition report_upload : UploadFile :=
  mkUploadFile "report.pdf" (Some "application/pdf") pdf_bytes.

Definition untyped_upload : UploadFile :=
  mkUploadFile "notes.bin" None [Byte.x41; Byte.x42].

(** A server with a writable disk holding one cached upload, and an
    account with one file in each state. *)
Definition server : world disk account :=
  mkWorld []
    (mkDisk true ["uploads"] [("uploads/report.pdf", pdf_bytes)])
    (mkAccount [report; video; broken] true)
    [].

(** The same server on a read-only file system. *)
Definition read_only_server : world disk account :=
  mkWorld [] (mkDisk false ["uploads"] []) (mkAccount [report; video; broken] true) [].

(** The same server once the provider's quota is exhausted. *)
Definition exhausted_server : world disk account :=
  mkWorld []
    (mkDisk true ["uploads"] [("uploads/report.pdf", pdf_bytes)])
    (mkAccount [report; video; broken] false)
    [].

End Demo.

Module DemoFiles.

(** Creation times as seconds since the epoch, printed in decimal; the
    account lists its stored files and fails after them when generation is
    unavailable. *)
#[global] Instance account_files : listing.GenaiFiles Demo.account N := {|
  listing.genai_list_files a :=
    (map (fun f => listing.mkFileInfo f 1024%Z (Some 1700000000%N)) (Demo.stored a),
     if Demo.available a then None else Some Demo.quota_exhausted,
     a);
  listing.isoformat t := NilEmpty.string_of_uint (N.to_uint t)
|}.

(** A provider that is down: every call raises. *)
Inductive outage : Type := Outage.

Definition unavailable : exn := Exception "503 Service Unavailable".

#[global] Instance outage_genai : Genai outage := {|
  genai_upload_file _ _ _ p := (Raise unavailable, p);
  genai_get_file _ p := (Raise unavailable, p);
  genai_delete_file _ p := (Raise unavailable, p);
  chat_send_message _ _ p := (Raise unavailable, p)
|}.

(** The server of [Demo] with the provider down. *)
Definition server_in_outage : world Demo.disk outage :=
  mkWorld [] (fs Demo.server) Outage [].

(** A server whose disk is read-only and has no uploads directory yet. *)
Definition fresh_read_only_server : world Demo.disk Demo.account :=
  mkWorld [] (Demo.mkDisk false [] []) (provider Demo.server) [].

(** The record the account of [Demo.server] creates for the upload of
    [Demo.report_upload], and the disk and the account after it. *)
Definition uploaded_report : File :=
  mkFile "files/doc3" "report.pdf"
    "https://generativelanguage.googleapis.com/v1beta/files/doc3"
    "application/pdf" ACTIVE.

Definition disk_after_upload : Demo.disk :=
  Demo.mkDisk true ["uploads"]
    [("uploads/report.pdf", Demo.pdf_bytes); ("uploads/report.pdf", Demo.pdf_bytes)].

Definition account_after_upload : Demo.account :=
  Demo.mkAccount [Demo.report; Demo.video; Demo.broken; uploaded_report] true.

(** The server of [Demo] with the directory's own entry spelled out:
    like every directory, "uploads" holds the entry ".", so the path
    "uploads/." exists and is not a file. *)
Definition server_with_dot_entry : world Demo.disk Demo.account :=
  mkWorld []
    (Demo.mkDisk true ["uploads"; "uploads/."]
       [("uploads/report.pdf", Demo.pdf_bytes)])
    (provider Demo.server)
    [].



End DemoFiles.

(* ===================================================================== *)
(** ** Definitions used to state the properties *)
(* ===================================================================== *)

(** The references a chat request supplies: none when [file_ids] is
    absent. *)
Definition references (file_ids : option (list pyval)) : list pyval :=
  match file_ids with
  | Some l => l
  | None => []
  end.

(** The lines of standard output that report a dropped reference. *)
Definition is_drop_report (entry : log_entry) : bool :=
  match entry with
  | WarningNotActive _ _ | ErrorCouldNotGet _ _ => true
  | _ => false
  end.

Definition drop_reports (out : list log_entry) : nat :=
  List.length (filter is_drop_report out).

(** The line the first loop of [ask_question] prints for a reference. *)
Definition cleaning_report (fid : pyval) : log_entry :=
  if gemini_service.is_file_uri fid
  then DebugExtractedId (gemini_service.clean_file_id fid) fid
  else DebugRawId fid.


(** The chat [ask_question] opens for a history. *)
Definition chat_for (history : list ChatTurn) : ChatSession :=
  mkChatSession
    (mkGenerativeModel "gemini-2.0-flash"
       "You are a PDF-based RAG assistant. Answer only from uploaded documents. You have access to metadata. [page x]")
    (gemini_service.gemini_history history).

(** Following the specification's words for [resolveFiles]: query the
    provider for each identifier in turn and keep, in order, the records
    it returns whose state is ACTIVE; an identifier the provider cannot
    resolve, or whose record is in another state, contributes nothing.
    The second component is the provider after the queries. *)
Fixpoint active_handles {P} {genai : Genai P} (names : list pyval) (p : P)
  : list File * P :=
  match names with
  | [] => ([], p)
  | n :: rest =>
      let (answer, p') := genai_get_file n p in
      let (handles, p'') := active_handles rest p' in
      (match answer with
       | Ok f => match state f with ACTIVE => f :: handles | _ => handles end
       | Raise _ => handles
       end, p'')
  end.

(** The names [ask_question] queries the provider for. *)
Definition cleaned (file_ids : option (list pyval)) : list pyval :=
  map gemini_service.clean_file_id (references file_ids).

(** The handles [ask_question] attaches, and the provider after the
    queries. *)
Definition attached {P} {genai : Genai P} (file_ids : option (list pyval))
    (p : P) : list File :=
  fst (active_handles (cleaned file_ids) p).

Definition queried {P} {genai : Genai P} (file_ids : option (list pyval))
    (p : P) : P :=
  snd (active_handles (cleaned file_ids) p).

(** Lines 27-28 of [upload_file] on their own: the uploads directory is
    created when it does not exist. *)
Definition uploads_directory {FS} {os : OS FS} (d : FS) : result unit * FS :=
  if os_path_exists "uploads" d then (Ok tt, d) else os_makedirs "uploads" d.

(** The outcome of a send: the reply's text, or the failure of the call
    or of reading the text. *)
Definition send_outcome {P} {genai : Genai P} (chat : ChatSession)
    (message_parts : list Part) (p : P) : result string * P :=
  match chat_send_message chat message_parts p with
  | (Ok response, p') => (response_text response, p')
  | (Raise e, p') => (Raise e, p')
  end.

(** [sep.join(pieces)] *)
Fixpoint join (sep : string) (pieces : list string) : string :=
  match pieces with
  | [] => EmptyString
  | piece :: rest =>
      match rest with
      | [] => piece
      | _ :: _ => piece ++ sep ++ join sep rest
      end
  end.

(** The values the route [/files/view/{filename}] (line 87) binds to
    [filename]: a path parameter without a converter matches one path
    segment, that is a non-empty string without a slash.  No request
    reaches [view_file] with any other name. *)
Definition is_path_segment (s : string) : bool :=
  negb (String.eqb s EmptyString) && negb (PyStr.contains "/" s).

(** A file system keeps what was written: after a successful write the
    path exists and reads back as the bytes written. *)
Definition keeps_written_files {FS} (os : OS FS) : Prop :=
  forall path data d d',
    os_write_file path data d = (Ok tt, d') ->
    os_path_exists path d' = true /\ os_read_file path d' = Ok data.

(** The calls [ask_question] may make. *)
Definition is_query_or_send (c : genai_call) : bool :=
  match c with
  | CallGetFile _ | CallSendMessage _ _ => true
  | _ => false
  end.

Ltac run :=
  unfold bind, ret, raise, print, on_fs, on_provider, try_except; simpl.

(* ===================================================================== *)
(** ** Normalisation of file references *)
(* ===================================================================== *)

Lemma startswith_app_l a b pre :
  PyStr.startswith a pre = true -> PyStr.startswith (a ++ b) pre = true.
Proof.
  revert a; induction pre as [|c pre IH]; intros a H; [reflexivity|].
  destruct a as [|d a]; simpl in *; [discriminate|].
  apply andb_true_iff in H as [-> H]. simpl. now apply IH.
Qed.

Lemma clean_file_id_not_uri fid :
  gemini_service.is_file_uri fid = false -> gemini_service.clean_file_id fid = fid.
Proof.
  intros H. destruct fid; try reflexivity.
  unfold gemini_service.clean_file_id. now rewrite H.
Qed.

Lemma clean_file_id_is_uri s :
  gemini_service.is_file_uri (PyStr s) = true ->
  gemini_service.clean_file_id (PyStr s)
  = PyStr ("files/" ++ PyStr.last_piece (PyStr.split "/files/" s)).
Proof.
  intros H. unfold gemini_service.clean_file_id. now rewrite H.
Qed.

Lemma cleaned_is_not_uri fid :
  gemini_service.is_file_uri (gemini_service.clean_file_id fid) = false.
Proof.
  destruct (gemini_service.is_file_uri fid) eqn:E.
  - destruct fid; try discriminate.
    rewrite (clean_file_id_is_uri _ E). reflexivity.
  - now rewrite (clean_file_id_not_uri _ E).
Qed.

(** C6: normalising a file reference twice gives the same string as
    normalising it once, for every string [x]. *)
Theorem clean_file_id_idempotent (x : string) :
  gemini_service.clean_file_id (gemini_service.clean_file_id (PyStr x))
  = gemini_service.clean_file_id (PyStr x).
Proof.
  apply clean_file_id_not_uri, cleaned_is_not_uri.
Qed.

(** C7, as stated, fails: the reference below is an https URI of the form
    ".../files/abc123", with "abc123" a plain identifier, and it is
    normalised to "files/files/abc123" and not to "files/abc123".  The
    split on "/files/" goes left to right without overlap, so the first
    of two adjacent "files" segments consumes the slash the second one
    needs. *)
Lemma clean_file_id_adjacent_segments :
  PyStr.startswith "https://example.com/files" "https://" = true
  /\ PyStr.contains "/" "abc123" = false
  /\ gemini_service.clean_file_id
       (PyStr ("https://example.com/files" ++ "/files/" ++ "abc123"))
     = PyStr "files/files/abc123"
  /\ gemini_service.clean_file_id
       (PyStr ("https://example.com/files" ++ "/files/" ++ "abc123"))
     <> PyStr ("files/" ++ "abc123").
Proof.
  repeat split; try reflexivity. discriminate.
Qed.

(** C7, amended: a reference [p ++ "/files/" ++ id] that starts with
    "http", whose "/files/" segment is the leftmost one and does not occur
    again in [id], is normalised to ["files/" ++ id]; in general a
    reference that starts with "http" and contains "/files/" is normalised
    to "files/" followed by the last piece of its split on "/files/"; any
    other reference is returned unchanged. *)
Theorem clean_file_id_uri :
  (forall p id : string,
      PyStr.startswith p "http" = true ->
      PyStr.contains "/files/" (p ++ "/files") = false ->
      PyStr.contains "/files/" id = false ->
      gemini_service.clean_file_id (PyStr (p ++ "/files/" ++ id))
      = PyStr ("files/" ++ id))
  /\ (forall s : string,
         PyStr.startswith s "http" = true ->
         PyStr.contains "/files/" s = true ->
         gemini_service.clean_file_id (PyStr s)
         = PyStr ("files/" ++ PyStr.last_piece (PyStr.split "/files/" s)))
  /\ (forall fid : pyval,
         gemini_service.is_file_uri fid = false ->
         gemini_service.clean_file_id fid = fid).
Proof.
  split; [|split].
  - intros p id Hhttp Hleft Hid.
    assert (Hcut : PyStr.partition "/files/" (p ++ "/files/" ++ id) = Some (p, id))
      by exact (PyStr.partition_leftmost "/files" "/"%char p id Hleft).
    assert (Hlast : PyStr.last_piece (PyStr.split "/files/" (p ++ "/files/" ++ id)) = id)
      by exact (PyStr.split_last_piece "/files" "/"%char p id Hleft Hid).
    assert (Huri : gemini_service.is_file_uri (PyStr (p ++ "/files/" ++ id)) = true).
    { unfold gemini_service.is_file_uri.
      rewrite (startswith_app_l _ _ _ Hhttp), PyStr.partition_contains, Hcut.
      reflexivity. }
    rewrite (clean_file_id_is_uri _ Huri), Hlast. reflexivity.
  - intros s Hhttp Hin. apply clean_file_id_is_uri.
    unfold gemini_service.is_file_uri. now rewrite Hhttp, Hin.
  - apply clean_file_id_not_uri.
Qed.

Lemma clean_file_id_uri_witness :
  gemini_service.clean_file_id
    (PyStr "https://generativelanguage.googleapis.com/v1beta/files/abc123")
  = PyStr "files/abc123"
  /\ gemini_service.clean_file_id (PyStr "https://a.example/files/b/files/c")
     = PyStr "files/c"
  /\ gemini_service.clean_file_id (PyStr "files/abc123") = PyStr "files/abc123".
Proof.
  split; [|split].
  - apply (proj1 clean_file_id_uri
             "https://generativelanguage.googleapis.com/v1beta" "abc123");
      reflexivity.
  - apply (proj1 (proj2 clean_file_id_uri) "https://a.example/files/b/files/c");
      reflexivity.
  - apply (proj2 (proj2 clean_file_id_uri)). reflexivity.
Defined.

(* ===================================================================== *)
(** ** Resolution of file references and the chat turn *)
(* ===================================================================== *)

Section Properties.

Context {FS P : Type} {os : OS FS} {genai : Genai P}.

Implicit Types (w : world FS P) (p : P).

Lemma bind_returns {A B} (m : M FS P A) (k : A -> M FS P B) w a w' :
  m w = (Ok a, w') -> bind m k w = k a w'.
Proof. unfold bind. now intros ->. Qed.

Lemma bind_raises {A B} (m : M FS P A) (k : A -> M FS P B) w e w' :
  m w = (Raise e, w') -> bind m k w = (Raise e, w').
Proof. unfold bind. now intros ->. Qed.

Lemma world_eta w : mkWorld (stdout w) (fs w) (provider w) (calls w) = w.
Proof. destruct w; reflexivity. Qed.

Lemma active_handles_cons n rest p :
  active_handles (n :: rest) p =
  (match fst (genai_get_file n p) with
   | Ok f => match state f with
             | ACTIVE => [f]
             | _ => []
             end
   | Raise _ => []
   end ++ fst (active_handles rest (snd (genai_get_file n p))),
   snd (active_handles rest (snd (genai_get_file n p))))%list.
Proof.
  simpl. destruct (genai_get_file n p) as [answer p']. simpl.
  destruct (active_handles rest p') as [handles p'']. simpl.
  destruct answer as [f|e]; [destruct (state f)|]; reflexivity.
Qed.


(** The first loop prints one line per reference and touches nothing
    else. *)
Lemma clean_file_ids_run file_ids w :
  gemini_service.clean_file_ids file_ids w =
  (Ok (map gemini_service.clean_file_id file_ids),
   mkWorld (stdout w ++ map cleaning_report file_ids) (fs w) (provider w) (calls w)).
Proof.
  revert w; induction file_ids as [|fid rest IH]; intros w; simpl.
  - run. now rewrite app_nil_r, world_eta.
  - run. rewrite IH. simpl. now rewrite <- app_assoc.
Qed.

Local Ltac step_loop IH :=
  lazymatch goal with
  | |- context [gemini_service.valid_files _ ?w1] =>
      let out := fresh "out" in
      let Hcount := fresh "Hcount" in
      destruct (IH w1) as (out & -> & Hcount); simpl in *;
      eexists; split;
      [ rewrite <- !app_assoc; simpl; reflexivity
      | unfold drop_reports in *; rewrite ?filter_app, ?length_app; simpl; lia ]
  end.

(** The second loop never raises: it returns the ACTIVE handles, makes one
    [get_file] call per identifier, and prints one drop report for each
    identifier it does not keep. *)
Lemma valid_files_run names w :
  exists out,
    gemini_service.valid_files names w =
    (Ok (fst (active_handles names (provider w))),
     mkWorld (stdout w ++ out) (fs w) (snd (active_handles names (provider w)))
       (calls w ++ map CallGetFile names))
    /\ drop_reports out + List.length (fst (active_handles names (provider w)))
       = List.length names.
Proof.
  revert w; induction names as [|n rest IH]; intros w.
  - exists []. simpl. run. now rewrite !app_nil_r, world_eta.
  - rewrite active_handles_cons. cbn [fst snd].
    cbn [gemini_service.valid_files]. run.
    destruct (genai_get_file n (provider w)) as [[f|e] p'] eqn:Eget; simpl.
    + destruct (state f) eqn:Est; simpl; step_loop IH.
    + step_loop IH.
Qed.

Lemma drop_reports_app (a b : list log_entry) :
  drop_reports (a ++ b) = drop_reports a + drop_reports b.
Proof. unfold drop_reports. now rewrite filter_app, length_app. Qed.

Lemma cleaning_reports_no_drop file_ids :
  drop_reports (map cleaning_report file_ids) = 0.
Proof.
  unfold drop_reports. induction file_ids as [|fid rest IH]; [reflexivity|].
  simpl. unfold cleaning_report at 1.
  destruct (gemini_service.is_file_uri fid); exact IH.
Qed.

(** Lines 78-108 as a whole: the parts are the message followed by the
    ACTIVE handles, and nothing is raised. *)
Lemma message_parts_run message file_ids w :
  exists out,
    gemini_service.message_parts message file_ids w =
    (Ok (PartText message :: map PartFile (attached file_ids (provider w))),
     mkWorld (stdout w ++ out) (fs w) (queried file_ids (provider w))
       (calls w ++ map CallGetFile (cleaned file_ids)))
    /\ drop_reports out + List.length (attached file_ids (provider w))
       = List.length (references file_ids).
Proof.
  destruct file_ids as [[|fid rest]|].
  1, 3: exists []; unfold attached, queried, cleaned; simpl; run;
        now rewrite !app_nil_r, world_eta.
  pose (w1 := mkWorld (stdout w ++ [DebugProcessingFileIds]) (fs w) (provider w)
                (calls w)).
  pose (w2 := mkWorld (stdout w1 ++ map cleaning_report (fid :: rest)) (fs w)
                (provider w) (calls w)).
  destruct (valid_files_run (cleaned (Some (fid :: rest))) w2) as (out & E & Hcount).
  assert (Hlen : List.length (cleaned (Some (fid :: rest)))
                 = List.length (references (Some (fid :: rest))))
    by apply length_map.
  rewrite Hlen in Hcount.
  change (provider w2) with (provider w) in E, Hcount.
  fold (attached (Some (fid :: rest)) (provider w)) in E, Hcount.
  fold (queried (Some (fid :: rest)) (provider w)) in E.
  unfold gemini_service.message_parts.
  rewrite (bind_returns _ _ w tt w1) by reflexivity.
  rewrite (bind_returns _ _ w1 _ w2) by apply clean_file_ids_run.
  rewrite (bind_returns _ _ _ _ _ E).
  pose proof (cleaning_reports_no_drop (fid :: rest)) as Hz.
  destruct (attached (Some (fid :: rest)) (provider w)) as [|f handles] eqn:Eh.
  - exists ([DebugProcessingFileIds] ++ map cleaning_report (fid :: rest)
            ++ out ++ [DebugNoValidFiles])%list.
    split.
    + run. now rewrite <- !app_assoc.
    + rewrite !drop_reports_app, Hz. cbn. cbn in Hcount. lia.
  - exists ([DebugProcessingFileIds] ++ map cleaning_report (fid :: rest)
            ++ out ++ [DebugAttached (List.length (f :: handles))])%list.
    split.
    + run. now rewrite <- !app_assoc.
    + rewrite !drop_reports_app, Hz. cbn. cbn in Hcount. lia.
Qed.

(** [ask_question] as a whole: one send of the message and the ACTIVE
    handles, after the queries; its result is the outcome of that send. *)
Lemma ask_question_run message history file_ids w :
  let message_parts :=
    PartText message :: map PartFile (attached file_ids (provider w)) in
  let sent :=
    send_outcome (chat_for history) message_parts (queried file_ids (provider w)) in
  exists out,
    gemini_service.ask_question message history file_ids w =
    (fst sent,
     mkWorld (stdout w ++ out) (fs w) (snd sent)
       (calls w ++ map CallGetFile (cleaned file_ids)
        ++ [CallSendMessage (chat_for history) message_parts]))
    /\ drop_reports out + List.length (attached file_ids (provider w))
       = List.length (references file_ids).
Proof.
  intros parts sent. subst sent. unfold send_outcome.
  unfold gemini_service.ask_question. fold (chat_for history). run.
  lazymatch goal with
  | |- context [gemini_service.message_parts message file_ids ?w1] =>
      destruct (message_parts_run message file_ids w1) as (out & -> & Hcount)
  end.
  cbn [stdout fs provider calls] in *. fold parts.
  destruct (chat_send_message (chat_for history) parts
              (queried file_ids (provider w))) as [[[[text|e]]|e] p2]; simpl.
  all: eexists; split;
    [ rewrite <- !app_assoc; simpl; reflexivity
    | unfold drop_reports in *; simpl;
      rewrite ?filter_app, ?length_app; simpl; lia ].
Qed.




End Properties.



(* ===================================================================== *)
(** ** Uploads *)
(* ===================================================================== *)

Section Uploads.

Context {FS P : Type} {os : OS FS} {genai : Genai P}.

Implicit Types (w : world FS P) (file : UploadFile).

(** What [upload_file] returns is built from the provider's record. *)
Lemma upload_file_returns file w resp w' :
  gemini_service.upload_file file w = (Ok resp, w') ->
  exists gemini_file,
    resp = mkFileUploadResponse (upload_filename file) (file_uri gemini_file)
             (py_or (content_type file) "application/octet-stream")
             (file_uri gemini_file)
    /\ exists before,
        calls w'
        = (before
           ++ [CallUploadFile (content file) (upload_filename file)
                 (py_or (content_type file) "application/octet-stream")])%list
        /\ before = calls w.
Proof.
  unfold gemini_service.upload_file. run.
  destruct (os_path_exists "uploads" (fs w)); simpl.
  2: destruct (os_makedirs "uploads" (fs w)) as [[[]|e] fs1]; simpl;
       [|discriminate].
  all: match goal with
       | |- context [os_write_file ?path ?data ?d] =>
           destruct (os_write_file path data d) as [[[]|e] fs2]; simpl;
           [|discriminate]
       end.
  all: match goal with
       | |- context [genai_upload_file ?data ?n ?m ?p] =>
           destruct (genai_upload_file data n m p) as [[g|e] p']; simpl;
           [|discriminate]
       end.
  all: intros [= <- <-]; exists g; split; [reflexivity|];
       eexists; split; reflexivity.
Qed.

(** C5: the response of every upload that returns one carries a [file_id]
    and a [uri], and the two are equal. *)
Theorem upload_file_id_is_uri file w resp w' :
  gemini_service.upload_file file w = (Ok resp, w') ->
  file_id resp = uri resp.
Proof.
  intros H. apply upload_file_returns in H as (g & -> & _). reflexivity.
Qed.

(** C9: when the client supplies no content type, the [mime_type] of the
    response and the one forwarded to the provider are both
    "application/octet-stream". *)
Theorem upload_file_default_mime_type file w resp w' :
  content_type file = None ->
  gemini_service.upload_file file w = (Ok resp, w') ->
  mime_type resp = "application/octet-stream"
  /\ calls w'
     = (calls w
        ++ [CallUploadFile (content file) (upload_filename file)
              "application/octet-stream"])%list.
Proof.
  intros Hnone H.
  apply upload_file_returns in H as (g & -> & before & Hcalls & ->).
  rewrite Hnone in *. split; [reflexivity | exact Hcalls].
Qed.

(** C3, amended: when the local copy cannot be written, [upload_file]
    fails with the error of the write; the provider is not contacted and
    nothing is printed. *)
Theorem upload_file_local_write_failure file w fs1 e fs' :
  uploads_directory (fs w) = (Ok tt, fs1) ->
  os_write_file ("uploads/" ++ upload_filename file) (content file) fs1
  = (Raise e, fs') ->
  gemini_service.upload_file file w
  = (Raise e, mkWorld (stdout w) fs' (provider w) (calls w)).
Proof.
  intros Hdir Hwrite. unfold gemini_service.upload_file, uploads_directory in *.
  run. simpl in Hwrite.
  destruct (os_path_exists "uploads" (fs w)); simpl.
  - injection Hdir as <-. rewrite Hwrite. reflexivity.
  - rewrite Hdir. simpl. rewrite Hwrite. reflexivity.
Qed.

End Uploads.

Lemma upload_file_id_is_uri_witness :
  exists resp w',
    gemini_service.upload_file Demo.report_upload Demo.server = (Ok resp, w')
    /\ filename resp = "report.pdf"
    /\ file_id resp = uri resp.
Proof.
  do 2 eexists. split; [cbv; reflexivity|]. split; [reflexivity|].
  eapply (upload_file_id_is_uri Demo.report_upload Demo.server).
  cbv; reflexivity.
Defined.

Lemma upload_file_default_mime_type_witness :
  exists resp w',
    gemini_service.upload_file Demo.untyped_upload Demo.server = (Ok resp, w')
    /\ mime_type resp = "application/octet-stream"
    /\ calls w'
       = [CallUploadFile [Byte.x41; Byte.x42] "notes.bin" "application/octet-stream"].
Proof.
  do 2 eexists. split; [cbv; reflexivity|].
  apply (upload_file_default_mime_type Demo.untyped_upload Demo.server);
    cbv; reflexivity.
Defined.

(** C3, as stated, fails: on a read-only file system the provider would
    accept the upload, and [upload_file] raises the error of the local
    write without ever calling the provider. *)
Lemma upload_file_read_only_disk :
  (exists gemini_file p',
      genai_upload_file (content Demo.report_upload) "report.pdf" "application/pdf"
        (provider Demo.read_only_server)
      = (Ok gemini_file, p'))
  /\ gemini_service.upload_file Demo.report_upload Demo.read_only_server
     = (Raise Demo.read_only_error, Demo.read_only_server).
Proof. split; [do 2 eexists|]; reflexivity. Qed.

Lemma upload_file_local_write_failure_witness :
  gemini_service.upload_file Demo.report_upload Demo.read_only_server
  = (Raise Demo.read_only_error,
     mkWorld [] (fs Demo.read_only_server) (provider Demo.read_only_server) []).
Proof.
  apply (upload_file_local_write_failure Demo.report_upload
           Demo.read_only_server (fs Demo.read_only_server)); reflexivity.
Defined.

(* ===================================================================== *)
(** ** The gateway *)
(* ===================================================================== *)

Section Gateway.

Context {FS P : Type} {os : OS FS} {genai : Genai P}.

Implicit Types (w : world FS P).

(** [chat] has no handler of its own: what [ask_question] raises leaves
    the endpoint as it is. *)
Lemma chat_raises req w e w' :
  gemini_service.ask_question (req_message req) (req_history req)
    (req_file_ids req) w = (Raise e, w') ->
  main.chat req w = (Raise e, w').
Proof. intros H. unfold main.chat. now rewrite (bind_raises _ _ _ _ _ H). Qed.

(** [delete_file] wraps what the adapter raises into an [HTTPException]
    with status 500 and the error's text as detail. *)
Lemma delete_file_raises file_id w e w' :
  gemini_service.delete_file file_id w = (Raise e, w') ->
  main.delete_file file_id w = (Raise (HTTPException 500 (str e)), w').
Proof.
  intros H. unfold main.delete_file, try_except.
  now rewrite (bind_raises _ _ _ _ _ H).
Qed.

(** Whatever plain exception [ask_question] raises, the answer to
    [POST /chat] is the framework's fixed one. *)
Lemma chat_failure_response req w msg w' :
  gemini_service.ask_question (req_message req) (req_history req)
    (req_file_ids req) w = (Raise (Exception msg), w') ->
  respond (main.chat req w) = internal_server_error.
Proof. intros H. now rewrite (chat_raises _ _ _ _ H). Qed.

(** The two cases [view_file] handles: for a path that does not exist,
    [GET /files/view/{filename}] answers normally (status 200) with a
    message saying the file was not found locally and may have been
    uploaded in a previous session or deleted; for a path that exists and
    can be read it answers with the bytes of that copy. *)
Theorem view_file_cached_or_not_found filename w :
  (os_path_exists ("uploads/" ++ filename) (fs w) = false ->
   main.view_file filename w
   = (Ok (JSONMessage
            "File not found locally. It might have been uploaded in a previous session or deleted."),
      w)
   /\ respond (main.view_file filename w)
      = mkHttpResponse 200
          (BodyJSON
             (JSONMessage
                "File not found locally. It might have been uploaded in a previous session or deleted.")))
  /\ (forall data,
         os_path_exists ("uploads/" ++ filename) (fs w) = true ->
         os_read_file ("uploads/" ++ filename) (fs w) = Ok data ->
         main.view_file filename w = (Ok (FileResponse ("uploads/" ++ filename)), w)
         /\ respond (main.view_file filename w) = mkHttpResponse 200 (BodyFile data)).
Proof.
  split.
  - intros Hmissing.
    assert (E : main.view_file filename w
                = (Ok (JSONMessage
                         "File not found locally. It might have been uploaded in a previous session or deleted."),
                   w)).
    { unfold main.view_file. run. simpl in Hmissing. rewrite Hmissing.
      now rewrite world_eta. }
    rewrite E. split; reflexivity.
  - intros data Hcached Hread.
    assert (E : main.view_file filename w
                = (Ok (FileResponse ("uploads/" ++ filename)), w)).
    { unfold main.view_file. run. simpl in Hcached. rewrite Hcached.
      now rewrite world_eta. }
    rewrite E. split; [reflexivity|].
    unfold respond. cbn [fst snd]. now rewrite Hread.
Qed.

End Gateway.

Lemma view_file_cached_or_not_found_witness :
  respond (main.view_file "never-uploaded.pdf" Demo.server)
  = mkHttpResponse 200
      (BodyJSON
         (JSONMessage
            "File not found locally. It might have been uploaded in a previous session or deleted."))
  /\ respond (main.view_file "report.pdf" Demo.server)
     = mkHttpResponse 200 (BodyFile Demo.pdf_bytes).
Proof.
  split.
  - apply (proj1 (view_file_cached_or_not_found "never-uploaded.pdf" Demo.server)).
    reflexivity.
  - apply (proj2 (view_file_cached_or_not_found "report.pdf" Demo.server)
             Demo.pdf_bytes); reflexivity.
Defined.

(** The case [view_file] misses: the test is [os.path.exists], so a path
    that exists without being a readable file is handed to
    [FileResponse], and the answer is the framework's 500. *)
Lemma view_file_unreadable_path {FS P} {os : OS FS} filename (w : world FS P) e :
  os_path_exists ("uploads/" ++ filename) (fs w) = true ->
  os_read_file ("uploads/" ++ filename) (fs w) = Raise e ->
  main.view_file filename w = (Ok (FileResponse ("uploads/" ++ filename)), w)
  /\ respond (main.view_file filename w) = internal_server_error.
Proof.
  intros Hexists Hread.
  assert (E : main.view_file filename w
              = (Ok (FileResponse ("uploads/" ++ filename)), w)).
  { unfold main.view_file. run. simpl in Hexists. rewrite Hexists.
    now rewrite world_eta. }
  rewrite E. split; [reflexivity|].
  unfold respond. cbn [fst snd]. now rewrite Hread.
Qed.

(** C8: [GET /files/view/.] names no cached copy: "." is a name the route
    accepts, the path "uploads/." exists because the uploads directory
    does, and nothing can be read from it.  The endpoint does not answer
    with the not-found message: it returns a [FileResponse] for the
    directory, and the request ends in status 500 with the text
    "Internal Server Error". *)
Theorem view_file_directory_is_not_reported_missing :
  is_path_segment "." = true
  /\ os_path_exists "uploads/." (fs DemoFiles.server_with_dot_entry) = true
  /\ (exists e, os_read_file "uploads/." (fs DemoFiles.server_with_dot_entry) = Raise e)
  /\ fst (main.view_file "." DemoFiles.server_with_dot_entry)
     = Ok (FileResponse "uploads/.")
  /\ respond (main.view_file "." DemoFiles.server_with_dot_entry)
     = mkHttpResponse 500 (BodyPlainText "Internal Server Error").
Proof.
  split; [reflexivity|]. split; [reflexivity|].
  split; [eexists; reflexivity|]. split; reflexivity.
Qed.

(** A file that was uploaded can be viewed: the bytes served are the bytes
    uploaded. *)
Example upload_then_view :
  respond (main.view_file "notes.bin"
             (snd (main.upload Demo.untyped_upload Demo.server)))
  = mkHttpResponse 200 (BodyFile [Byte.x41; Byte.x42]).
Proof. reflexivity. Qed.

(** C4: with the provider's quota exhausted, [POST /chat] lets the
    adapter's exception escape; the framework answers 500 with the fixed
    text "Internal Server Error", and the failure's own message appears
    nowhere in the body.  On the same server [DELETE /files/files/gone]
    fails too, and its answer does carry the message. *)
Theorem chat_failure_hides_message :
  fst (main.chat (mkChatRequest "Summarize page 1" [] None) Demo.exhausted_server)
  = Raise Demo.quota_exhausted
  /\ respond (main.chat (mkChatRequest "Summarize page 1" [] None)
                Demo.exhausted_server)
     = mkHttpResponse 500 (BodyPlainText "Internal Server Error")
  /\ respond (main.delete_file "files/gone" Demo.exhausted_server)
     = mkHttpResponse 500 (BodyDetail "404 File not found").
Proof. repeat split; reflexivity. Qed.

(* ===================================================================== *)
(** ** Splitting, joining and the shape of a normalised reference *)
(* ===================================================================== *)

Lemma string_length_ind (Q : string -> Prop) :
  (forall s, (forall t, String.length t < String.length s -> Q t) -> Q s) ->
  forall s, Q s.
Proof.
  intros step s.
  remember (String.length s) as n eqn:En. revert s En.
  induction n as [n IH] using lt_wf_ind. intros s ->.
  apply step. intros t Ht. exact (IH _ Ht t eq_refl).
Qed.

(** One step of a split: either the separator is found and the split goes
    on in the shorter rest, or it does not occur and the string is the
    only piece. *)
Lemma split_step c sep s :
  (exists before after,
      s = before ++ String c sep ++ after
      /\ PyStr.contains (String c sep) before = false
      /\ PyStr.split (String c sep) s = before :: PyStr.split (String c sep) after
      /\ String.length after < String.length s)
  \/ (PyStr.contains (String c sep) s = false
      /\ PyStr.split (String c sep) s = [s]).
Proof.
  destruct (PyStr.partition (String c sep) s) as [[before after]|] eqn:E.
  - left. exists before, after.
    split; [now apply PyStr.partition_Some|].
    split; [|split; [now apply PyStr.split_cons
                    | eapply PyStr.partition_shorter; eassumption]].
    clear - E. revert before E.
    induction s as [|d s IH]; intros before; rewrite PyStr.partition_unfold.
    + destruct (PyStr.startswith EmptyString (String c sep)); [|discriminate].
      intros [= <- _]. reflexivity.
    + destruct (PyStr.startswith (String d s) (String c sep)) eqn:Ehere.
      * intros [= <- _]. reflexivity.
      * destruct (PyStr.partition (String c sep) s) as [[b a]|] eqn:Es;
          [|discriminate].
        intros [= <- <-].
        cbn [PyStr.contains]. rewrite (IH b eq_refl), orb_false_r.
        destruct (PyStr.startswith (String d b) (String c sep)) eqn:Eb;
          [|reflexivity].
        apply PyStr.partition_Some in Es. subst s.
        change (String d (b ++ String c sep ++ a))
          with (String d b ++ String c sep ++ a) in Ehere.
        now rewrite (startswith_app_l _ _ _ Eb) in Ehere.
  - right. split; [|now apply PyStr.split_single].
    now rewrite PyStr.partition_contains, E.
Qed.

Lemma split_not_empty c sep s : PyStr.split (String c sep) s <> [].
Proof.
  destruct (split_step c sep s) as [(b & a & _ & _ & -> & _) | [_ ->]];
    discriminate.
Qed.

(** X1: splitting on a non-empty separator and joining the pieces with
    the same separator gives the string back, and no piece contains the
    separator. *)
Theorem split_join_round_trip c sep s :
  join (String c sep) (PyStr.split (String c sep) s) = s
  /\ Forall (fun piece => PyStr.contains (String c sep) piece = false)
       (PyStr.split (String c sep) s).
Proof.
  induction s as [s IH] using string_length_ind.
  destruct (split_step c sep s)
    as [(before & after & Es & Hclean & -> & Hlen) | [Hnone ->]].
  - destruct (IH after Hlen) as [Hjoin Hpieces]. split.
    + cbn [join].
      destruct (PyStr.split (String c sep) after) as [|piece rest] eqn:E.
      { now apply split_not_empty in E. }
      rewrite Hjoin. now symmetry.
    + constructor; assumption.
  - split; [reflexivity | repeat constructor; assumption].
Qed.

(** The last piece of a split is a suffix of the string, right after an
    occurrence of the separator when there is one. *)
Lemma last_piece_suffix c sep s :
  PyStr.contains (String c sep) s = true ->
  exists before,
    s = before ++ String c sep ++ PyStr.last_piece (PyStr.split (String c sep) s)
    /\ PyStr.contains (String c sep)
         (PyStr.last_piece (PyStr.split (String c sep) s)) = false.
Proof.
  induction s as [s IH] using string_length_ind. intros Hin.
  destruct (split_step c sep s)
    as [(before & after & Es & _ & Esplit & Hlen) | [Hnone _]];
    [|congruence].
  assert (Elast : PyStr.last_piece (PyStr.split (String c sep) s)
                  = PyStr.last_piece (PyStr.split (String c sep) after)).
  { rewrite Esplit. unfold PyStr.last_piece.
    destruct (PyStr.split (String c sep) after) eqn:E; [|reflexivity].
    now apply split_not_empty in E. }
  rewrite Elast.
  destruct (PyStr.contains (String c sep) after) eqn:Hafter.
  - destruct (IH after Hlen Hafter) as (mid & Emid & Hclean).
    exists (before ++ String c sep ++ mid). split; [|exact Hclean].
    rewrite Es at 1. rewrite Emid at 1.
    now rewrite !PyStr.app_assoc.
  - rewrite (PyStr.split_no_separator _ _ _ Hafter).
    exists before. split; assumption.
Qed.

(** X2: a reference that passes the test of line 84 is cut after one of
    its "/files/" separators: the result is "files/" followed by a suffix
    of the reference that holds no further "/files/". *)
Theorem clean_file_id_keeps_suffix (s : string) :
  gemini_service.is_file_uri (PyStr s) = true ->
  exists before id,
    s = before ++ "/files/" ++ id
    /\ PyStr.contains "/files/" id = false
    /\ gemini_service.clean_file_id (PyStr s) = PyStr ("files/" ++ id).
Proof.
  intros Huri. rewrite (clean_file_id_is_uri _ Huri).
  unfold gemini_service.is_file_uri in Huri.
  apply andb_true_iff in Huri as [_ Hin].
  destruct (last_piece_suffix "/"%char "files/" s Hin) as (before & Es & Hclean).
  exists before, (PyStr.last_piece (PyStr.split "/files/" s)).
  repeat split; assumption.
Qed.

Lemma clean_file_id_keeps_suffix_witness :
  exists before id,
    "https://a.example/files/b/files/c" = before ++ "/files/" ++ id
    /\ PyStr.contains "/files/" id = false
    /\ gemini_service.clean_file_id (PyStr "https://a.example/files/b/files/c")
       = PyStr ("files/" ++ id).
Proof.
  apply (clean_file_id_keeps_suffix "https://a.example/files/b/files/c").
  reflexivity.
Defined.

(* ===================================================================== *)
(** ** More on the chat path *)
(* ===================================================================== *)

(** The translated history has one turn per turn of the client, in the
    same order, each with the turn's content as its only part; the role
    is "user" for the client role "user" and "model" for every other
    role, whatever its spelling. *)
Lemma gemini_history_roles (history : list ChatTurn) :
  Forall2
    (fun turn c =>
       parts c = [turn_content turn]
       /\ (turn_role turn = "user" -> role c = "user")
       /\ (turn_role turn <> "user" -> role c = "model"))
    history (gemini_service.gemini_history history).
Proof.
  induction history as [|turn rest IH]; simpl; constructor; [|exact IH].
  simpl. split; [reflexivity|].
  destruct (String.eqb_spec (turn_role turn) "user") as [E|E]; split;
    intros; try reflexivity; contradiction.
Qed.

Lemma gemini_history_roles_witness :
  gemini_service.gemini_history
    [mkChatTurn "user" "hi"; mkChatTurn "assistant" "hello"; mkChatTurn "User" "?"]
  = [mkContent "user" ["hi"]; mkContent "model" ["hello"]; mkContent "model" ["?"]]
  /\ Forall2
       (fun turn c =>
          parts c = [turn_content turn]
          /\ (turn_role turn = "user" -> role c = "user")
          /\ (turn_role turn <> "user" -> role c = "model"))
       [mkChatTurn "user" "hi"; mkChatTurn "assistant" "hello"; mkChatTurn "User" "?"]
       [mkContent "user" ["hi"]; mkContent "model" ["hello"]; mkContent "model" ["?"]].
Proof.
  split; [reflexivity|].
  exact (gemini_history_roles
           [mkChatTurn "user" "hi"; mkChatTurn "assistant" "hello";
            mkChatTurn "User" "?"]).
Defined.

Section ChatPath.

Context {FS P : Type} {os : OS FS} {genai : Genai P}.

Implicit Types (w : world FS P).

(** X4: [ask_question] leaves the local file system alone, and the only
    SDK calls it adds are [get_file] queries and [send_message]: it never
    uploads and never deletes. *)
Theorem ask_question_only_queries_and_sends message history file_ids w :
  exists new,
    calls (snd (gemini_service.ask_question message history file_ids w))
    = (calls w ++ new)%list
    /\ forallb is_query_or_send new = true
    /\ fs (snd (gemini_service.ask_question message history file_ids w)) = fs w.
Proof.
  destruct (ask_question_run message history file_ids w) as (out & E & _).
  cbv zeta in E. rewrite E. cbn [snd calls fs].
  eexists. split; [reflexivity|]. split; [|reflexivity].
  rewrite forallb_app. apply andb_true_iff. split; [|reflexivity].
  generalize (cleaned file_ids) as names.
  induction names as [|n names IH]; [reflexivity | exact IH].
Qed.


(** X5: a call that fails ends its standard output with the CRITICAL
    ERROR line of the very error it raises; a call that returns ends it
    with the line saying the response was received. *)
Theorem ask_question_reports_failure message history file_ids w :
  match gemini_service.ask_question message history file_ids w with
  | (Raise e, w') =>
      exists before,
        stdout w' = (stdout w ++ before ++ [CriticalError e])%list
  | (Ok _, w') =>
      exists before,
        stdout w' = (stdout w ++ before ++ [DebugResponseReceived])%list
  end.
Proof.
  unfold gemini_service.ask_question. fold (chat_for history). run.
  lazymatch goal with
  | |- context [gemini_service.message_parts message file_ids ?w1] =>
      destruct (message_parts_run message file_ids w1) as (out & -> & _)
  end.
  cbn [stdout fs provider calls].
  destruct (chat_send_message (chat_for history) _ _) as [[[[text|e]]|e] p2];
    simpl.
  - exists ([DebugAskQuestion message file_ids] ++ out ++ [DebugSending])%list.
    now rewrite <- !app_assoc.
  - exists ([DebugAskQuestion message file_ids] ++ out
            ++ [DebugSending; DebugResponseReceived])%list.
    now rewrite <- !app_assoc.
  - exists ([DebugAskQuestion message file_ids] ++ out ++ [DebugSending])%list.
    now rewrite <- !app_assoc.
Qed.


End ChatPath.


(* ===================================================================== *)
(** ** More on the upload path *)
(* ===================================================================== *)

Section UploadPath.

Context {FS P : Type} {os : OS FS} {genai : Genai P}.

Implicit Types (w : world FS P) (file : UploadFile).

(** Once the local copy is written, [upload_file] is the provider's
    upload: its outcome decides the result, and the world keeps the
    written copy either way. *)
Lemma upload_file_after_write file w fs1 fs2 :
  uploads_directory (fs w) = (Ok tt, fs1) ->
  os_write_file ("uploads/" ++ upload_filename file) (content file) fs1
  = (Ok tt, fs2) ->
  gemini_service.upload_file file w
  = (match fst (genai_upload_file (content file) (upload_filename file)
                  (py_or (content_type file) "application/octet-stream")
                  (provider w)) with
     | Ok gemini_file =>
         Ok (mkFileUploadResponse (upload_filename file) (file_uri gemini_file)
               (py_or (content_type file) "application/octet-stream")
               (file_uri gemini_file))
     | Raise e => Raise e
     end,
     mkWorld
       (stdout w ++ [DebugSavedLocally ("uploads/" ++ upload_filename file)])
       fs2
       (snd (genai_upload_file (content file) (upload_filename file)
               (py_or (content_type file) "application/octet-stream")
               (provider w)))
       (calls w
        ++ [CallUploadFile (content file) (upload_filename file)
              (py_or (content_type file) "application/octet-stream")])).
Proof.
  intros Hdir Hwrite. unfold gemini_service.upload_file, uploads_directory in *.
  run. simpl in Hwrite.
  destruct (os_path_exists "uploads" (fs w)); simpl.
  - injection Hdir as <-. rewrite Hwrite. simpl.
    destruct (genai_upload_file _ _ _ _) as [[g|e] p']; reflexivity.
  - rewrite Hdir. simpl. rewrite Hwrite. simpl.
    destruct (genai_upload_file _ _ _ _) as [[g|e] p']; reflexivity.
Qed.

(** What a successful [upload_file] did to the file system. *)
Lemma upload_file_wrote file w resp w' :
  gemini_service.upload_file file w = (Ok resp, w') ->
  exists fs1,
    uploads_directory (fs w) = (Ok tt, fs1)
    /\ os_write_file ("uploads/" ++ upload_filename file) (content file) fs1
       = (Ok tt, fs w').
Proof.
  unfold gemini_service.upload_file, uploads_directory. run.
  destruct (os_path_exists "uploads" (fs w)); simpl.
  2: destruct (os_makedirs "uploads" (fs w)) as [[[]|e] fs1]; simpl;
       [|discriminate].
  all: match goal with
       | |- context [os_write_file ?path ?data ?d] =>
           destruct (os_write_file path data d) as [[[]|e] fs2] eqn:Ew; simpl;
           [|discriminate]
       end.
  all: match goal with
       | |- context [genai_upload_file ?data ?n ?m ?p] =>
           destruct (genai_upload_file data n m p) as [[g|e] p']; simpl;
           [|discriminate]
       end.
  all: intros [= _ <-]; eexists; split; [reflexivity | exact Ew].
Qed.

(** X7: when the uploads directory is there (or can be created), the
    local copy is written and the provider accepts the content, the
    upload returns the client's filename with the provider's URI as both
    [file_id] and [uri]; one line is printed, one SDK call is made, and
    [POST /upload] answers 200 with that response. *)
Theorem upload_file_succeeds file w fs1 fs2 gemini_file p' :
  uploads_directory (fs w) = (Ok tt, fs1) ->
  os_write_file ("uploads/" ++ upload_filename file) (content file) fs1
  = (Ok tt, fs2) ->
  genai_upload_file (content file) (upload_filename file)
    (py_or (content_type file) "application/octet-stream") (provider w)
  = (Ok gemini_file, p') ->
  let resp :=
    mkFileUploadResponse (upload_filename file) (file_uri gemini_file)
      (py_or (content_type file) "application/octet-stream")
      (file_uri gemini_file) in
  gemini_service.upload_file file w
  = (Ok resp,
     mkWorld
       (stdout w ++ [DebugSavedLocally ("uploads/" ++ upload_filename file)])
       fs2 p'
       (calls w
        ++ [CallUploadFile (content file) (upload_filename file)
              (py_or (content_type file) "application/octet-stream")]))
  /\ respond (main.upload file w) = mkHttpResponse 200 (BodyJSON (JSONUpload resp)).
Proof.
  intros Hdir Hwrite Hup resp.
  pose proof (upload_file_after_write file w fs1 fs2 Hdir Hwrite) as E.
  rewrite Hup in E. cbn [fst snd] in E. fold resp in E.
  split; [exact E|].
  unfold main.upload. rewrite (bind_returns _ _ _ _ _ E). reflexivity.
Qed.

(** X8: when the provider rejects the content after the local copy was
    written, [upload_file] fails with the provider's error and nothing is
    rolled back: the copy stays in the file system and the line saying it
    was saved stays printed. *)
Theorem upload_file_provider_failure file w fs1 fs2 e p' :
  uploads_directory (fs w) = (Ok tt, fs1) ->
  os_write_file ("uploads/" ++ upload_filename file) (content file) fs1
  = (Ok tt, fs2) ->
  genai_upload_file (content file) (upload_filename file)
    (py_or (content_type file) "application/octet-stream") (provider w)
  = (Raise e, p') ->
  gemini_service.upload_file file w
  = (Raise e,
     mkWorld
       (stdout w ++ [DebugSavedLocally ("uploads/" ++ upload_filename file)])
       fs2 p'
       (calls w
        ++ [CallUploadFile (content file) (upload_filename file)
              (py_or (content_type file) "application/octet-stream")])).
Proof.
  intros Hdir Hwrite Hup.
  rewrite (upload_file_after_write file w fs1 fs2 Hdir Hwrite), Hup.
  reflexivity.
Qed.

(** X9: a content type the client declares is returned and forwarded as
    it is, except the empty one, which is replaced by
    "application/octet-stream" like a missing one. *)
Theorem upload_file_declared_mime_type file w resp w' declared :
  content_type file = Some declared ->
  gemini_service.upload_file file w = (Ok resp, w') ->
  let expected :=
    if String.eqb declared EmptyString
    then "application/octet-stream" else declared in
  mime_type resp = expected
  /\ calls w'
     = (calls w
        ++ [CallUploadFile (content file) (upload_filename file) expected])%list.
Proof.
  intros Hdeclared H expected.
  apply upload_file_returns in H as (g & -> & before & Hcalls & ->).
  rewrite Hdeclared in *.
  assert (E : py_or (Some declared) "application/octet-stream" = expected)
    by (subst expected; destruct declared; reflexivity).
  rewrite E in *. split; [reflexivity | exact Hcalls].
Qed.

(** X10: when the uploads directory is missing and cannot be created,
    [upload_file] fails with that error before it writes anything or
    contacts the provider. *)
Theorem upload_file_directory_failure file w e fs' :
  os_path_exists "uploads" (fs w) = false ->
  os_makedirs "uploads" (fs w) = (Raise e, fs') ->
  gemini_service.upload_file file w
  = (Raise e, mkWorld (stdout w) fs' (provider w) (calls w)).
Proof.
  intros Hmissing Hmk. unfold gemini_service.upload_file. run.
  rewrite Hmissing. simpl. rewrite Hmk. reflexivity.
Qed.

(** X11: on a file system that keeps what is written, a file that was
    uploaded under a name the view route accepts (one path segment) can
    be viewed under that name right away: [GET /files/view/{filename}]
    answers 200 with the uploaded bytes. *)
Theorem upload_then_view_round_trip file w resp w' :
  keeps_written_files os ->
  is_path_segment (upload_filename file) = true ->
  gemini_service.upload_file file w = (Ok resp, w') ->
  respond (main.view_file (upload_filename file) w')
  = mkHttpResponse 200 (BodyFile (content file)).
Proof.
  intros Hkeeps _ Hup.
  apply upload_file_wrote in Hup as (fs1 & _ & Hwrite).
  apply Hkeeps in Hwrite as [Hexists Hread].
  unfold main.view_file. run. simpl in Hexists, Hread. rewrite Hexists.
  unfold respond. cbn [fst snd fs]. simpl. now rewrite Hread.
Qed.

End UploadPath.

(** The disk of [Demo] keeps what is written. *)
Lemma disk_keeps_written_files : keeps_written_files Demo.disk_os.
Proof.
  intros path data d d' H. simpl in H.
  destruct (Demo.writable d); [|discriminate].
  injection H as <-. simpl. rewrite String.eqb_refl.
  split; [apply orb_true_r | reflexivity].
Qed.

Lemma upload_file_succeeds_witness :
  respond (main.upload Demo.report_upload Demo.server)
  = mkHttpResponse 200
      (BodyJSON
         (JSONUpload
            (mkFileUploadResponse "report.pdf"
               "https://generativelanguage.googleapis.com/v1beta/files/doc3"
               "application/pdf"
               "https://generativelanguage.googleapis.com/v1beta/files/doc3"))).
Proof.
  destruct (upload_file_succeeds (os := Demo.disk_os)
              (genai := Demo.account_genai) Demo.report_upload Demo.server
              (fs Demo.server) DemoFiles.disk_after_upload
              DemoFiles.uploaded_report DemoFiles.account_after_upload
              eq_refl eq_refl eq_refl) as [_ H].
  exact H.
Defined.

Lemma upload_file_provider_failure_witness :
  gemini_service.upload_file Demo.report_upload DemoFiles.server_in_outage
  = (Raise DemoFiles.unavailable,
     mkWorld [DebugSavedLocally "uploads/report.pdf"]
       DemoFiles.disk_after_upload DemoFiles.Outage
       [CallUploadFile Demo.pdf_bytes "report.pdf" "application/pdf"]).
Proof.
  exact (upload_file_provider_failure (os := Demo.disk_os)
           (genai := DemoFiles.outage_genai) Demo.report_upload
           DemoFiles.server_in_outage (fs Demo.server)
           DemoFiles.disk_after_upload DemoFiles.unavailable DemoFiles.Outage
           eq_refl eq_refl eq_refl).
Defined.

Lemma upload_file_declared_mime_type_witness :
  exists resp w',
    gemini_service.upload_file Demo.report_upload Demo.server = (Ok resp, w')
    /\ mime_type resp = "application/pdf"
    /\ calls w' = [CallUploadFile Demo.pdf_bytes "report.pdf" "application/pdf"].
Proof.
  do 2 eexists. split; [cbv; reflexivity|].
  apply (upload_file_declared_mime_type Demo.report_upload Demo.server _ _
           "application/pdf"); cbv; reflexivity.
Defined.

Lemma upload_file_directory_failure_witness :
  gemini_service.upload_file Demo.report_upload DemoFiles.fresh_read_only_server
  = (Raise Demo.read_only_error, DemoFiles.fresh_read_only_server).
Proof.
  exact (upload_file_directory_failure (os := Demo.disk_os)
           (genai := Demo.account_genai) Demo.report_upload
           DemoFiles.fresh_read_only_server Demo.read_only_error
           (Demo.mkDisk false [] []) eq_refl eq_refl).
Defined.

Lemma upload_then_view_round_trip_witness :
  respond
    (main.view_file "notes.bin"
       (snd (gemini_service.upload_file Demo.untyped_upload Demo.server)))
  = mkHttpResponse 200 (BodyFile [Byte.x41; Byte.x42]).
Proof.
  eapply (upload_then_view_round_trip Demo.untyped_upload Demo.server).
  - exact disk_keeps_written_files.
  - reflexivity.
  - cbv. reflexivity.
Defined.

(* ===================================================================== *)
(** ** From an upload to a chat *)
(* ===================================================================== *)


Section UploadThenChat.

Context {FS P : Type} {os : OS FS} {genai : Genai P}.

Implicit Types (w : world FS P).


End UploadThenChat.


(* ===================================================================== *)
(** ** Deleting a file *)
(* ===================================================================== *)

Section DeletePath.

Context {FS P : Type} {os : OS FS} {genai : Genai P}.

Implicit Types (w : world FS P).

(** X13: when the provider rejects a deletion, [DELETE /files/{file_id}]
    answers 500 with the error's text as detail; the adapter asked the
    provider once and printed the error, and the file system is
    untouched. *)
Theorem delete_file_failure_is_reported file_id w e p' :
  genai_delete_file file_id (provider w) = (Raise e, p') ->
  main.delete_file file_id w
  = (Raise (HTTPException 500 (str e)),
     mkWorld (stdout w ++ [DebugDeleting file_id; ErrorDeleting file_id e])
       (fs w) p' (calls w ++ [CallDeleteFile file_id]))
  /\ respond (main.delete_file file_id w)
     = mkHttpResponse 500 (BodyDetail (str e)).
Proof.
  intros H.
  assert (E : main.delete_file file_id w
              = (Raise (HTTPException 500 (str e)),
                 mkWorld (stdout w ++ [DebugDeleting file_id; ErrorDeleting file_id e])
                   (fs w) p' (calls w ++ [CallDeleteFile file_id]))).
  { unfold main.delete_file, gemini_service.delete_file. run. rewrite H. simpl.
    now rewrite <- app_assoc. }
  rewrite E. split; reflexivity.
Qed.

(** X14: when the provider accepts a deletion, the endpoint answers 200
    with the message "File <file_id> deleted successfully", after a single
    call to the provider. *)
Theorem delete_file_success_is_confirmed file_id w p' :
  genai_delete_file file_id (provider w) = (Ok tt, p') ->
  main.delete_file file_id w
  = (Ok (JSONMessage ("File " ++ file_id ++ " deleted successfully")),
     mkWorld (stdout w ++ [DebugDeleting file_id]) (fs w) p'
       (calls w ++ [CallDeleteFile file_id]))
  /\ respond (main.delete_file file_id w)
     = mkHttpResponse 200
         (BodyJSON (JSONMessage ("File " ++ file_id ++ " deleted successfully"))).
Proof.
  intros H.
  assert (E : main.delete_file file_id w
              = (Ok (JSONMessage ("File " ++ file_id ++ " deleted successfully")),
                 mkWorld (stdout w ++ [DebugDeleting file_id]) (fs w) p'
                   (calls w ++ [CallDeleteFile file_id]))).
  { unfold main.delete_file, gemini_service.delete_file. run. rewrite H.
    reflexivity. }
  rewrite E. split; reflexivity.
Qed.

End DeletePath.

Lemma delete_file_failure_is_reported_witness :
  respond (main.delete_file "files/gone" Demo.server)
  = mkHttpResponse 500 (BodyDetail "404 File not found").
Proof.
  destruct (delete_file_failure_is_reported (os := Demo.disk_os)
              (genai := Demo.account_genai) "files/gone" Demo.server
              Demo.not_found (provider Demo.server) eq_refl) as [_ H].
  exact H.
Defined.

Lemma delete_file_success_is_confirmed_witness :
  respond (main.delete_file "files/video" Demo.server)
  = mkHttpResponse 200 (BodyJSON (JSONMessage "File files/video deleted successfully")).
Proof.
  destruct (delete_file_success_is_confirmed (os := Demo.disk_os)
              (genai := Demo.account_genai) "files/video" Demo.server
              (Demo.mkAccount [Demo.report; Demo.broken] true) eq_refl) as [_ H].
  exact H.
Defined.

(* ===================================================================== *)
(** ** Listing *)
(* ===================================================================== *)

Section ListingPath.

Context {FS P T : Type} {sdk : listing.GenaiFiles P T}.

Implicit Types (w : world FS P).

Lemma append_entries_map (yielded : list (listing.FileInfo T)) files :
  listing.append_entries yielded files
  = (files ++ map listing.file_entry yielded)%list.
Proof.
  revert files; induction yielded as [|f rest IH]; intros files; simpl.
  - now rewrite app_nil_r.
  - now rewrite IH, <- app_assoc.
Qed.

(** X15: when the provider's iterator ends normally, [GET /files] returns
    one entry per record it yielded, in the same order, each with the
    record's name, display name, URI, mime type and size, the name of its
    state, and its creation time in ISO format or nothing when the record
    has none; nothing is printed. *)
Theorem list_uploaded_files_lists_all w yielded p' :
  listing.genai_list_files (provider w) = (yielded, None, p') ->
  exists entries,
    listing.list_uploaded_files w
    = (Ok entries, mkWorld (stdout w) (fs w) p' (calls w), [])
    /\ Forall2
         (fun f entry =>
            listing.entry_name entry = name (listing.info_file f)
            /\ listing.entry_display_name entry = display_name (listing.info_file f)
            /\ listing.entry_uri entry = file_uri (listing.info_file f)
            /\ listing.entry_mime_type entry = file_mime_type (listing.info_file f)
            /\ listing.entry_size_bytes entry = listing.size_bytes f
            /\ listing.entry_create_time entry
               = option_map listing.isoformat (listing.create_time f)
            /\ listing.entry_state entry
               = state_name (state (listing.info_file f)))
         yielded entries.
Proof.
  intros H. exists (map listing.file_entry yielded). split.
  - unfold listing.list_uploaded_files, listing.list_files.
    rewrite H, append_entries_map. reflexivity.
  - clear H. induction yielded as [|f rest IH]; simpl; constructor; [|exact IH].
    repeat split.
Qed.

(** X16: when the iterator raises, after any number of records, no
    partial listing is returned: [list_files] prints the error and
    re-raises it, and [GET /files] turns it into status 500 with the
    error's text as detail. *)
Theorem list_uploaded_files_failure w yielded e p' :
  listing.genai_list_files (provider w) = (yielded, Some e, p') ->
  listing.list_files w
  = (Raise e, mkWorld (stdout w) (fs w) p' (calls w), [listing.ErrorListing e])
  /\ listing.list_uploaded_files w
     = (Raise (HTTPException 500 (str e)),
        mkWorld (stdout w) (fs w) p' (calls w), [listing.ErrorListing e]).
Proof.
  intros H. unfold listing.list_uploaded_files, listing.list_files.
  rewrite H. split; reflexivity.
Qed.

End ListingPath.

Lemma list_uploaded_files_lists_all_witness :
  exists entries,
    fst (fst (listing.list_uploaded_files (FS := Demo.disk) Demo.server))
    = Ok entries
    /\ map listing.entry_display_name entries
       = ["report.pdf"; "talk.mp4"; "broken.pdf"]
    /\ map listing.entry_state entries = ["ACTIVE"; "PENDING"; "FAILED"]
    /\ map listing.entry_create_time entries
       = [Some "1700000000"; Some "1700000000"; Some "1700000000"].
Proof.
  destruct (list_uploaded_files_lists_all (FS := Demo.disk)
              (sdk := DemoFiles.account_files) Demo.server
              (map (fun f => listing.mkFileInfo f 1024%Z (Some 1700000000%N))
                 [Demo.report; Demo.video; Demo.broken])
              (provider Demo.server) eq_refl) as (entries & E & Hfields).
  exists entries. split; [now rewrite E|].
  cbn [map] in Hfields.
  repeat match goal with
         | H : Forall2 _ (_ :: _) _ |- _ => inversion H; subst; clear H
         | H : Forall2 _ [] _ |- _ => inversion H; subst; clear H
         | H : _ /\ _ |- _ => destruct H
         end.
  cbn [map listing.info_file listing.create_time option_map] in *.
  repeat split; repeat f_equal; assumption.
Defined.

Lemma list_uploaded_files_failure_witness :
  fst (fst (listing.list_uploaded_files (FS := Demo.disk) Demo.exhausted_server))
  = Raise (HTTPException 500 "429 Resource has been exhausted").
Proof.
  destruct (list_uploaded_files_failure (FS := Demo.disk)
              (sdk := DemoFiles.account_files) Demo.exhausted_server
              (map (fun f => listing.mkFileInfo f 1024%Z (Some 1700000000%N))
                 [Demo.report; Demo.video; Demo.broken])
              Demo.quota_exhausted (provider Demo.exhausted_server) eq_refl)
    as [_ E].
  rewrite E. reflexivity.
Defined.

(* ===================================================================== *)
(** ** The test for a URI *)
(* ===================================================================== *)

Lemma contains_unfold sub s :
  PyStr.contains sub s
  = (PyStr.startswith s sub
     || match s with
        | EmptyString => false
        | String _ s' => PyStr.contains sub s'
        end).
Proof. destruct s; reflexivity. Qed.

Lemma contains_occurrence sub before after :
  PyStr.contains sub (before ++ sub ++ after) = true.
Proof.
  induction before as [|c before IH].
  - change (EmptyString ++ ?x) with x.
    now rewrite contains_unfold, PyStr.startswith_app.
  - change (String c before ++ ?x) with (String c (before ++ x)).
    cbn [PyStr.contains]. rewrite IH. apply orb_true_r.
Qed.

(** X17: the test of line 84 holds of a string exactly when the string
    begins with the four characters "http" and has "/files/" somewhere in
    it; it holds of no value that is not a string. *)
Theorem is_file_uri_iff (fid : pyval) :
  gemini_service.is_file_uri fid = true
  <-> exists rest before after,
        fid = PyStr ("http" ++ rest)
        /\ "http" ++ rest = before ++ "/files/" ++ after.
Proof.
  split.
  - destruct fid as [s| | |]; try discriminate.
    unfold gemini_service.is_file_uri. intros H.
    apply andb_true_iff in H as [Hhttp Hin].
    apply PyStr.startswith_drop in Hhttp.
    rewrite PyStr.partition_contains in Hin.
    destruct (PyStr.partition "/files/" s) as [[before after]|] eqn:E;
      [|discriminate].
    apply PyStr.partition_Some in E.
    exists (PyStr.drop (String.length "http") s), before, after.
    rewrite <- Hhttp. split; [reflexivity | exact E].
  - intros (rest & before & after & -> & E).
    unfold gemini_service.is_file_uri. apply andb_true_iff. split.
    + apply PyStr.startswith_app.
    + rewrite E. apply contains_occurrence.
Qed.

Lemma is_file_uri_iff_witness :
  gemini_service.is_file_uri (PyStr "httpx/files/") = true
  /\ exists rest before after,
       PyStr "https://host/v1beta/files/abc" = PyStr ("http" ++ rest)
       /\ "http" ++ rest = before ++ "/files/" ++ after.
Proof.
  split.
  - apply (proj2 (is_file_uri_iff (PyStr "httpx/files/"))).
    exists "x/files/", "httpx", EmptyString. split; reflexivity.
  - apply (proj1 (is_file_uri_iff (PyStr "https://host/v1beta/files/abc"))).
    reflexivity.
Defined.
